(** * pytcsschemahelper.versions: version enums and compatibility tables

    A shallow embedding of [src/pytcsschemahelper/versions.py]: the three
    [str]-mixin enumerations, the default-version constants, the router
    URL, the two compatibility dictionaries and the two lookup functions
    [is_emissions_report_compatible] and [is_tcs_compatible]. *)

From Stdlib Require Import String List Bool Arith Lia.
Import ListNotations.
Open Scope string_scope.

(** ** The enumerations

    Each class is [class X(str, Enum)]: a closed set of members, each
    carrying a string value.  [members] is the iteration order of the
    class (definition order), so [length members] is [len(X)]. *)

Module ReportingOrgVersion.
Inductive t : Set := V0_0_1 | V0_1_0 | V0_1_1 | V0_1_2.

Definition value (v : t) : string :=
  match v with
  | V0_0_1 => "0.0.1"
  | V0_1_0 => "0.1.0"
  | V0_1_1 => "0.1.1"
  | V0_1_2 => "0.1.2"
  end.

Definition members : list t := [V0_0_1; V0_1_0; V0_1_1; V0_1_2].

Definition eq_dec (a b : t) : {a = b} + {a <> b}.
Proof. decide equality. Defined.
End ReportingOrgVersion.

Module EmissionsReportVersion.
Inductive t : Set := V0_0_1 | V0_0_2 | V0_0_3.

Definition value (v : t) : string :=
  match v with
  | V0_0_1 => "0.0.1"
  | V0_0_2 => "0.0.2"
  | V0_0_3 => "0.0.3"
  end.

Definition members : list t := [V0_0_1; V0_0_2; V0_0_3].

Definition eq_dec (a b : t) : {a = b} + {a <> b}.
Proof. decide equality. Defined.
End EmissionsReportVersion.

Module TCSVersion.
Inductive t : Set := V0_0_1 | V0_0_2 | V0_1_0.

Definition value (v : t) : string :=
  match v with
  | V0_0_1 => "0.0.1"
  | V0_0_2 => "0.0.2"
  | V0_1_0 => "0.1.0"
  end.

Definition members : list t := [V0_0_1; V0_0_2; V0_1_0].

Definition eq_dec (a b : t) : {a = b} + {a <> b}.
Proof. decide equality. Defined.
End TCSVersion.

(** Position of a member in the iteration order of its class; [None]
    cannot happen for a member, see [index_of_members] below. *)
Fixpoint index_of {A : Type} (eq_dec : forall a b : A, {a = b} + {a <> b})
         (x : A) (l : list A) : option nat :=
  match l with
  | [] => None
  | y :: l' =>
      if eq_dec x y then Some 0
      else option_map S (index_of eq_dec x l')
  end.

(** [older eq_dec members a b]: [a] comes strictly before [b] in the
    iteration order, i.e. [a] is the older version. *)
Definition older {A : Type} (eq_dec : forall a b : A, {a = b} + {a <> b})
           (members : list A) (a b : A) : Prop :=
  match index_of eq_dec a members, index_of eq_dec b members with
  | Some i, Some j => i < j
  | _, _ => False
  end.

Definition ro_older := older ReportingOrgVersion.eq_dec ReportingOrgVersion.members.
Definition er_older := older EmissionsReportVersion.eq_dec EmissionsReportVersion.members.
Definition tcs_older := older TCSVersion.eq_dec TCSVersion.members.

(** ** Python [str] objects

    The arguments of the two functions and the contents of the two
    dictionaries are [str] objects: either a plain [str], or a member of
    one of the three enumerations (which are [str] subclasses). *)

Inductive PyStr : Set :=
| Str (s : string)
| RO (v : ReportingOrgVersion.t)
| ER (v : EmissionsReportVersion.t)
| TCS (v : TCSVersion.t).

(** The characters of a [str] object. *)
Definition str_value (x : PyStr) : string :=
  match x with
  | Str s => s
  | RO v => ReportingOrgVersion.value v
  | ER v => EmissionsReportVersion.value v
  | TCS v => TCSVersion.value v
  end.

(** [x == y].  The enumerations list [str] before [Enum] in their bases,
    so [__eq__] and [__hash__] are those of [str]: two objects are equal
    when they hold the same characters, whatever their classes. *)
Definition py_eq (x y : PyStr) : bool := String.eqb (str_value x) (str_value y).

(** [x in l] for a Python list [l]: some element equals [x]. *)
Fixpoint list_contains (l : list PyStr) (x : PyStr) : bool :=
  match l with
  | [] => false
  | y :: l' => py_eq y x || list_contains l' x
  end.

(** ** Dictionaries keyed by [str] objects

    A dictionary is kept as its items in insertion order.  Keys that are
    equal have equal hashes, so a lookup finds the entry whose key is
    [==] to the one asked for. *)
Definition PyDict : Set := list (PyStr * list PyStr).

(** [d[k]]: [None] stands for [KeyError]. *)
Fixpoint dict_getitem (d : PyDict) (k : PyStr) : option (list PyStr) :=
  match d with
  | [] => None
  | (k', v) :: d' => if py_eq k' k then Some v else dict_getitem d' k
  end.

(** [k in d]. *)
Definition dict_contains (d : PyDict) (k : PyStr) : bool :=
  match dict_getitem d k with
  | Some _ => true
  | None => false
  end.

(** [d.get(k, default)]: never raises [KeyError]. *)
Definition dict_get (d : PyDict) (k : PyStr) (default : list PyStr) : list PyStr :=
  match dict_getitem d k with
  | Some v => v
  | None => default
  end.

(** ** Module-level constants *)

Definition DEFAULT_REPORTING_ORG_VERSION : PyStr := RO ReportingOrgVersion.V0_1_2.
Definition DEFAULT_EMISSIONS_REPORT_VERSION : PyStr := ER EmissionsReportVersion.V0_0_3.
Definition DEFAULT_TCS_VERSION : PyStr := TCS TCSVersion.V0_1_0.

Definition ROUTER_SCHEMA_URL : string :=
  "https://techcarbonstandard.org/schemas/index.json".

Definition REPORTING_ORG_COMPATIBILITY : PyDict :=
  [ (RO ReportingOrgVersion.V0_1_2,
      [ ER EmissionsReportVersion.V0_0_1;
        ER EmissionsReportVersion.V0_0_2;
        ER EmissionsReportVersion.V0_0_3 ]);
    (RO ReportingOrgVersion.V0_1_1,
      [ ER EmissionsReportVersion.V0_0_1;
        ER EmissionsReportVersion.V0_0_2;
        ER EmissionsReportVersion.V0_0_3 ]);
    (RO ReportingOrgVersion.V0_1_0,
      [ ER EmissionsReportVersion.V0_0_1;
        ER EmissionsReportVersion.V0_0_2 ]);
    (RO ReportingOrgVersion.V0_0_1,
      [ ER EmissionsReportVersion.V0_0_1 ]) ].

Definition EMISSIONS_REPORT_COMPATIBILITY : PyDict :=
  [ (ER EmissionsReportVersion.V0_0_3,
      [ TCS TCSVersion.V0_0_1;
        TCS TCSVersion.V0_0_2;
        TCS TCSVersion.V0_1_0 ]);
    (ER EmissionsReportVersion.V0_0_2,
      [ TCS TCSVersion.V0_0_1;
        TCS TCSVersion.V0_0_2 ]);
    (ER EmissionsReportVersion.V0_0_1,
      [ TCS TCSVersion.V0_0_1 ]) ].

(** ** The two predicates *)

Definition is_emissions_report_compatible
           (reporting_org_version emissions_report_version : PyStr) : bool :=
  let compatible_versions :=
    dict_get REPORTING_ORG_COMPATIBILITY reporting_org_version [] in
  list_contains compatible_versions emissions_report_version.

Definition is_tcs_compatible
           (emissions_report_version tcs_version : PyStr) : bool :=
  let compatible_versions :=
    dict_get EMISSIONS_REPORT_COMPATIBILITY emissions_report_version [] in
  list_contains compatible_versions tcs_version.

(** ** The tables as the specification lists them

    Section 6 of the specification writes each matrix as
    parent -> set of children, over version strings.  These two
    definitions follow that text and are compared with the code's
    dictionaries below. *)

Definition SpecMatrix : Set := list (string * list string).

Definition spec_reporting_org_matrix : SpecMatrix :=
  [ ("0.1.2", ["0.0.1"; "0.0.2"; "0.0.3"]);
    ("0.1.1", ["0.0.1"; "0.0.2"; "0.0.3"]);
    ("0.1.0", ["0.0.1"; "0.0.2"]);
    ("0.0.1", ["0.0.1"]) ].

Definition spec_emissions_report_matrix : SpecMatrix :=
  [ ("0.0.3", ["0.0.1"; "0.0.2"; "0.1.0"]);
    ("0.0.2", ["0.0.1"; "0.0.2"]);
    ("0.0.1", ["0.0.1"]) ].

(** The pair (parent, child) is listed in the matrix. *)
Definition spec_listed (m : SpecMatrix) (parent child : string) : bool :=
  existsb (fun row => String.eqb (fst row) parent
                      && existsb (String.eqb child) (snd row)) m.

(** ** Basic facts about [str] equality, lists and dictionaries *)

Lemma py_eq_true_iff (x y : PyStr) :
  py_eq x y = true <-> str_value x = str_value y.
Proof. unfold py_eq. apply String.eqb_eq. Qed.

Lemma py_eq_refl (x : PyStr) : py_eq x x = true.
Proof. unfold py_eq. apply String.eqb_refl. Qed.

Lemma py_eq_sym (x y : PyStr) : py_eq x y = py_eq y x.
Proof. unfold py_eq. apply String.eqb_sym. Qed.

(** Equality against a key only looks at the characters of the other
    side. *)
Lemma py_eq_value_r (k x y : PyStr) :
  str_value x = str_value y -> py_eq k x = py_eq k y.
Proof. unfold py_eq. intros ->. reflexivity. Qed.

Lemma list_contains_value (l : list PyStr) (x y : PyStr) :
  str_value x = str_value y -> list_contains l x = list_contains l y.
Proof.
  intros Hxy. induction l as [|z l IH]; simpl.
  - reflexivity.
  - rewrite IH, (py_eq_value_r z x y Hxy). reflexivity.
Qed.

Lemma dict_getitem_value (d : PyDict) (k k' : PyStr) :
  str_value k = str_value k' -> dict_getitem d k = dict_getitem d k'.
Proof.
  intros Hk. induction d as [|[key v] d IH]; simpl.
  - reflexivity.
  - rewrite IH, (py_eq_value_r key k k' Hk). reflexivity.
Qed.

Lemma dict_get_value (d : PyDict) (k k' : PyStr) (default : list PyStr) :
  str_value k = str_value k' -> dict_get d k default = dict_get d k' default.
Proof.
  intros Hk. unfold dict_get. rewrite (dict_getitem_value d k k' Hk). reflexivity.
Qed.

(** A lookup with a default on a missing key gives the default. *)
Lemma dict_get_missing (d : PyDict) (k : PyStr) (default : list PyStr) :
  dict_contains d k = false -> dict_get d k default = default.
Proof.
  unfold dict_contains, dict_get.
  destruct (dict_getitem d k); [discriminate | reflexivity].
Qed.

Lemma list_contains_In (l : list PyStr) (x : PyStr) :
  list_contains l x = true <-> exists y, In y l /\ str_value y = str_value x.
Proof.
  induction l as [|z l IH]; simpl.
  - split; [discriminate | intros [y [[] _]]].
  - rewrite orb_true_iff, IH, py_eq_true_iff. split.
    + intros [H | [y [Hy Hv]]]; [exists z | exists y]; auto.
    + intros [y [[-> | Hy] Hv]]; [left | right; exists y]; auto.
Qed.

(** Both predicates depend on their arguments through [str_value] only. *)
Lemma is_emissions_report_compatible_value (p p' c c' : PyStr) :
  str_value p = str_value p' -> str_value c = str_value c' ->
  is_emissions_report_compatible p c = is_emissions_report_compatible p' c'.
Proof.
  intros Hp Hc. unfold is_emissions_report_compatible.
  rewrite (dict_get_value _ p p' _ Hp). apply list_contains_value, Hc.
Qed.

Lemma is_tcs_compatible_value (p p' c c' : PyStr) :
  str_value p = str_value p' -> str_value c = str_value c' ->
  is_tcs_compatible p c = is_tcs_compatible p' c'.
Proof.
  intros Hp Hc. unfold is_tcs_compatible.
  rewrite (dict_get_value _ p p' _ Hp). apply list_contains_value, Hc.
Qed.

(** Case split on which key of the table, if any, equals [p]. *)
Ltac split_on_keys p :=
  repeat match goal with
         | |- context [py_eq ?k p] => destruct (py_eq k p)
         | H : context [py_eq ?k p] |- _ => destruct (py_eq k p)
         end.

(** Evaluate an [older] hypothesis on concrete members and drop the
    cases where it is false. *)
Ltac older_cases H :=
  cbv in H; try lia; try contradiction.

(** Every member has a position in its class's iteration order. *)
Lemma index_of_members :
  (forall v, exists i, index_of ReportingOrgVersion.eq_dec v ReportingOrgVersion.members = Some i)
  /\ (forall v, exists i, index_of EmissionsReportVersion.eq_dec v EmissionsReportVersion.members = Some i)
  /\ (forall v, exists i, index_of TCSVersion.eq_dec v TCSVersion.members = Some i).
Proof. repeat split; intros []; eexists; reflexivity. Qed.

(** The concrete scenarios of the specification, with plain strings as a
    document would supply them. *)
Example concrete_scenarios :
  is_emissions_report_compatible (Str "0.1.2") (Str "0.0.3") = true
  /\ is_emissions_report_compatible (Str "0.0.1") (Str "0.0.3") = false
  /\ is_emissions_report_compatible (Str "0.1.0") (Str "0.0.3") = false
  /\ is_emissions_report_compatible (Str "0.1.0") (Str "0.0.2") = true
  /\ is_tcs_compatible (Str "0.0.3") (Str "0.1.0") = true
  /\ is_tcs_compatible (Str "0.0.1") (Str "0.1.0") = false
  /\ is_tcs_compatible (Str "0.0.2") (Str "0.0.2") = true
  /\ is_tcs_compatible (Str "0.0.2") (Str "0.1.0") = false.
Proof. repeat split. Qed.

(** ** The compatibility relation *)

(** C1. On the cross-product of the enumerations each predicate is true
    exactly on the parent/child pairs that the specification's matrix
    lists, and false on every other pair. *)
Theorem predicates_match_spec_matrices :
  (forall (p : ReportingOrgVersion.t) (c : EmissionsReportVersion.t),
      is_emissions_report_compatible (RO p) (ER c)
      = spec_listed spec_reporting_org_matrix
                    (ReportingOrgVersion.value p) (EmissionsReportVersion.value c))
  /\ (forall (p : EmissionsReportVersion.t) (c : TCSVersion.t),
      is_tcs_compatible (ER p) (TCS c)
      = spec_listed spec_emissions_report_matrix
                    (EmissionsReportVersion.value p) (TCSVersion.value c)).
Proof. split; intros [] []; reflexivity. Qed.

(** C2. A parent that is not a key of the matrix is compatible with
    nothing: the lookup falls back to the empty list instead of raising
    [KeyError], and the predicate answers [false] for every child.  The
    predicates are total functions on [str] objects. *)
Theorem unknown_parent_yields_false :
  (forall p c : PyStr,
      dict_contains REPORTING_ORG_COMPATIBILITY p = false ->
      dict_getitem REPORTING_ORG_COMPATIBILITY p = None
      /\ is_emissions_report_compatible p c = false)
  /\ (forall p c : PyStr,
      dict_contains EMISSIONS_REPORT_COMPATIBILITY p = false ->
      dict_getitem EMISSIONS_REPORT_COMPATIBILITY p = None
      /\ is_tcs_compatible p c = false).
Proof.
  split; intros p c H.
  - unfold is_emissions_report_compatible.
    rewrite (dict_get_missing _ _ _ H). split; [|reflexivity].
    unfold dict_contains in H.
    destruct (dict_getitem REPORTING_ORG_COMPATIBILITY p); [discriminate | reflexivity].
  - unfold is_tcs_compatible.
    rewrite (dict_get_missing _ _ _ H). split; [|reflexivity].
    unfold dict_contains in H.
    destruct (dict_getitem EMISSIONS_REPORT_COMPATIBILITY p); [discriminate | reflexivity].
Qed.

Lemma unknown_parent_yields_false_witness :
  (dict_contains REPORTING_ORG_COMPATIBILITY (Str "9.9.9") = false
   /\ is_emissions_report_compatible (Str "9.9.9") (ER EmissionsReportVersion.V0_0_1) = false)
  /\ (dict_contains EMISSIONS_REPORT_COMPATIBILITY (RO ReportingOrgVersion.V0_1_2) = false
      /\ is_tcs_compatible (RO ReportingOrgVersion.V0_1_2) (Str "0.0.1") = false).
Proof.
  split; (split; [reflexivity|]).
  - apply (proj1 unknown_parent_yields_false (Str "9.9.9")). reflexivity.
  - apply (proj2 unknown_parent_yields_false (RO ReportingOrgVersion.V0_1_2)). reflexivity.
Defined.

(** C3. A newer parent accepts at least what an older parent accepts:
    the older parent's entry is included in the newer parent's entry,
    is no longer than it, and every child the predicate accepts for the
    older parent it accepts for the newer one. *)
Theorem compatibility_monotone :
  (forall p_old p_new : ReportingOrgVersion.t,
      ro_older p_old p_new ->
      incl (dict_get REPORTING_ORG_COMPATIBILITY (RO p_old) [])
           (dict_get REPORTING_ORG_COMPATIBILITY (RO p_new) [])
      /\ length (dict_get REPORTING_ORG_COMPATIBILITY (RO p_old) [])
         <= length (dict_get REPORTING_ORG_COMPATIBILITY (RO p_new) [])
      /\ forall c : PyStr,
          is_emissions_report_compatible (RO p_old) c = true ->
          is_emissions_report_compatible (RO p_new) c = true)
  /\ (forall p_old p_new : EmissionsReportVersion.t,
      er_older p_old p_new ->
      incl (dict_get EMISSIONS_REPORT_COMPATIBILITY (ER p_old) [])
           (dict_get EMISSIONS_REPORT_COMPATIBILITY (ER p_new) [])
      /\ length (dict_get EMISSIONS_REPORT_COMPATIBILITY (ER p_old) [])
         <= length (dict_get EMISSIONS_REPORT_COMPATIBILITY (ER p_new) [])
      /\ forall c : PyStr,
          is_tcs_compatible (ER p_old) c = true ->
          is_tcs_compatible (ER p_new) c = true).
Proof.
  assert (Hincl : forall l l' : list PyStr, incl l l' ->
            forall c, list_contains l c = true -> list_contains l' c = true).
  { intros l l' Hl c. rewrite !list_contains_In.
    intros [y [Hy Hv]]. exists y. split; [apply Hl, Hy | exact Hv]. }
  split; intros p_old p_new Hlt.
  - assert (Hsub : incl (dict_get REPORTING_ORG_COMPATIBILITY (RO p_old) [])
                        (dict_get REPORTING_ORG_COMPATIBILITY (RO p_new) [])).
    { destruct p_old, p_new; older_cases Hlt;
        intros x Hx; simpl in *; tauto. }
    split; [exact Hsub|]. split.
    + destruct p_old, p_new; older_cases Hlt; simpl; lia.
    + intros c. unfold is_emissions_report_compatible. apply Hincl, Hsub.
  - assert (Hsub : incl (dict_get EMISSIONS_REPORT_COMPATIBILITY (ER p_old) [])
                        (dict_get EMISSIONS_REPORT_COMPATIBILITY (ER p_new) [])).
    { destruct p_old, p_new; older_cases Hlt;
        intros x Hx; simpl in *; tauto. }
    split; [exact Hsub|]. split.
    + destruct p_old, p_new; older_cases Hlt; simpl; lia.
    + intros c. unfold is_tcs_compatible. apply Hincl, Hsub.
Qed.

Lemma compatibility_monotone_witness :
  ro_older ReportingOrgVersion.V0_1_0 ReportingOrgVersion.V0_1_1
  /\ er_older EmissionsReportVersion.V0_0_1 EmissionsReportVersion.V0_0_3
  /\ is_emissions_report_compatible (RO ReportingOrgVersion.V0_1_0) (Str "0.0.2") = true
  /\ is_emissions_report_compatible (RO ReportingOrgVersion.V0_1_1) (Str "0.0.2") = true
  /\ length (dict_get EMISSIONS_REPORT_COMPATIBILITY (ER EmissionsReportVersion.V0_0_1) [])
     <= length (dict_get EMISSIONS_REPORT_COMPATIBILITY (ER EmissionsReportVersion.V0_0_3) []).
Proof.
  assert (H1 : ro_older ReportingOrgVersion.V0_1_0 ReportingOrgVersion.V0_1_1)
    by (cbv; lia).
  assert (H2 : er_older EmissionsReportVersion.V0_0_1 EmissionsReportVersion.V0_0_3)
    by (cbv; lia).
  split; [exact H1|]. split; [exact H2|]. split; [reflexivity|]. split.
  - apply (proj1 compatibility_monotone _ _ H1). reflexivity.
  - apply (proj2 compatibility_monotone _ _ H2).
Defined.

(** C4. Every member of [ReportingOrgVersion] is a key of
    [REPORTING_ORG_COMPATIBILITY] and every member of
    [EmissionsReportVersion] is a key of [EMISSIONS_REPORT_COMPATIBILITY];
    the entry under each such key is a non-empty list. *)
Theorem every_version_has_nonempty_entry :
  (forall v : ReportingOrgVersion.t,
      dict_contains REPORTING_ORG_COMPATIBILITY (RO v) = true
      /\ exists l, dict_getitem REPORTING_ORG_COMPATIBILITY (RO v) = Some l
                   /\ 0 < length l)
  /\ (forall v : EmissionsReportVersion.t,
      dict_contains EMISSIONS_REPORT_COMPATIBILITY (ER v) = true
      /\ exists l, dict_getitem EMISSIONS_REPORT_COMPATIBILITY (ER v) = Some l
                   /\ 0 < length l).
Proof.
  split; intros []; (split; [reflexivity|]);
    eexists; (split; [reflexivity | simpl; lia]).
Qed.

(** ** Enumerations and constants *)

(** C5. The enumerations hold exactly the listed strings, in this order:
    [ReportingOrgVersion] has the 4 values 0.0.1, 0.1.0, 0.1.1, 0.1.2;
    [EmissionsReportVersion] the 3 values 0.0.1, 0.0.2, 0.0.3;
    [TCSVersion] the 3 values 0.0.1, 0.0.2, 0.1.0.  Every member is
    iterated, and distinct members have distinct values. *)
Theorem enumerations_exact :
  (map ReportingOrgVersion.value ReportingOrgVersion.members
   = ["0.0.1"; "0.1.0"; "0.1.1"; "0.1.2"]
   /\ length ReportingOrgVersion.members = 4
   /\ (forall v, In v ReportingOrgVersion.members)
   /\ NoDup (map ReportingOrgVersion.value ReportingOrgVersion.members))
  /\ (map EmissionsReportVersion.value EmissionsReportVersion.members
      = ["0.0.1"; "0.0.2"; "0.0.3"]
      /\ length EmissionsReportVersion.members = 3
      /\ (forall v, In v EmissionsReportVersion.members)
      /\ NoDup (map EmissionsReportVersion.value EmissionsReportVersion.members))
  /\ (map TCSVersion.value TCSVersion.members
      = ["0.0.1"; "0.0.2"; "0.1.0"]
      /\ length TCSVersion.members = 3
      /\ (forall v, In v TCSVersion.members)
      /\ NoDup (map TCSVersion.value TCSVersion.members)).
Proof.
  repeat split; try (intros []; simpl; tauto);
    simpl; repeat constructor; simpl; intuition discriminate.
Qed.

(** C6. Each default constant is the last (newest) member of its
    enumeration, every other member being older, and compares equal to
    its string literal: 0.1.2, 0.0.3 and 0.1.0. *)
Theorem defaults_are_newest :
  (DEFAULT_REPORTING_ORG_VERSION = RO ReportingOrgVersion.V0_1_2
   /\ DEFAULT_REPORTING_ORG_VERSION
      = RO (last ReportingOrgVersion.members ReportingOrgVersion.V0_0_1)
   /\ (forall v, RO v = DEFAULT_REPORTING_ORG_VERSION
                 \/ ro_older v ReportingOrgVersion.V0_1_2)
   /\ str_value DEFAULT_REPORTING_ORG_VERSION = "0.1.2"
   /\ py_eq DEFAULT_REPORTING_ORG_VERSION (Str "0.1.2") = true)
  /\ (DEFAULT_EMISSIONS_REPORT_VERSION = ER EmissionsReportVersion.V0_0_3
      /\ DEFAULT_EMISSIONS_REPORT_VERSION
         = ER (last EmissionsReportVersion.members EmissionsReportVersion.V0_0_1)
      /\ (forall v, ER v = DEFAULT_EMISSIONS_REPORT_VERSION
                    \/ er_older v EmissionsReportVersion.V0_0_3)
      /\ str_value DEFAULT_EMISSIONS_REPORT_VERSION = "0.0.3"
      /\ py_eq DEFAULT_EMISSIONS_REPORT_VERSION (Str "0.0.3") = true)
  /\ (DEFAULT_TCS_VERSION = TCS TCSVersion.V0_1_0
      /\ DEFAULT_TCS_VERSION = TCS (last TCSVersion.members TCSVersion.V0_0_1)
      /\ (forall v, TCS v = DEFAULT_TCS_VERSION \/ tcs_older v TCSVersion.V0_1_0)
      /\ str_value DEFAULT_TCS_VERSION = "0.1.0"
      /\ py_eq DEFAULT_TCS_VERSION (Str "0.1.0") = true).
Proof.
  repeat split; try reflexivity;
    intros []; try (left; reflexivity); right; cbv; lia.
Qed.

(** C7. [ROUTER_SCHEMA_URL] is the string
    https://techcarbonstandard.org/schemas/index.json, character for
    character (49 characters). *)
Theorem router_schema_url_exact :
  ROUTER_SCHEMA_URL = "https://techcarbonstandard.org/schemas/index.json"
  /\ String.length ROUTER_SCHEMA_URL = 49.
Proof. split; reflexivity. Qed.

(** ** Shape of the accepted sets *)

(** C8. Whatever the parent, a parent that accepts a child version also
    accepts every older version of the same child enumeration. *)
Theorem accepted_children_downward_closed :
  (forall (p : PyStr) (c_old c_new : EmissionsReportVersion.t),
      er_older c_old c_new ->
      is_emissions_report_compatible p (ER c_new) = true ->
      is_emissions_report_compatible p (ER c_old) = true)
  /\ (forall (p : PyStr) (c_old c_new : TCSVersion.t),
      tcs_older c_old c_new ->
      is_tcs_compatible p (TCS c_new) = true ->
      is_tcs_compatible p (TCS c_old) = true).
Proof.
  split; intros p c_old c_new Hlt.
  - unfold is_emissions_report_compatible, dict_get.
    cbn [dict_getitem REPORTING_ORG_COMPATIBILITY].
    split_on_keys p;
      destruct c_old, c_new; older_cases Hlt; intros H;
        solve [reflexivity | discriminate H].
  - unfold is_tcs_compatible, dict_get.
    cbn [dict_getitem EMISSIONS_REPORT_COMPATIBILITY].
    split_on_keys p;
      destruct c_old, c_new; older_cases Hlt; intros H;
        solve [reflexivity | discriminate H].
Qed.

Lemma accepted_children_downward_closed_witness :
  (er_older EmissionsReportVersion.V0_0_1 EmissionsReportVersion.V0_0_2
   /\ is_emissions_report_compatible (Str "0.1.0") (ER EmissionsReportVersion.V0_0_2) = true
   /\ is_emissions_report_compatible (Str "0.1.0") (ER EmissionsReportVersion.V0_0_1) = true)
  /\ (tcs_older TCSVersion.V0_0_2 TCSVersion.V0_1_0
      /\ is_tcs_compatible (ER EmissionsReportVersion.V0_0_3) (TCS TCSVersion.V0_1_0) = true
      /\ is_tcs_compatible (ER EmissionsReportVersion.V0_0_3) (TCS TCSVersion.V0_0_2) = true).
Proof.
  assert (H1 : er_older EmissionsReportVersion.V0_0_1 EmissionsReportVersion.V0_0_2)
    by (cbv; lia).
  assert (H2 : tcs_older TCSVersion.V0_0_2 TCSVersion.V0_1_0)
    by (cbv; lia).
  split; (split; [assumption|]); (split; [reflexivity|]).
  - apply (proj1 accepted_children_downward_closed (Str "0.1.0") _ _ H1). reflexivity.
  - apply (proj2 accepted_children_downward_closed
                 (ER EmissionsReportVersion.V0_0_3) _ _ H2). reflexivity.
Defined.

(** C9. The three default versions form a valid combination: the default
    Reporting-Org version accepts the default Emissions-Report version,
    which accepts the default TCS version. *)
Theorem defaults_mutually_compatible :
  is_emissions_report_compatible
    DEFAULT_REPORTING_ORG_VERSION DEFAULT_EMISSIONS_REPORT_VERSION = true
  /\ is_tcs_compatible DEFAULT_EMISSIONS_REPORT_VERSION DEFAULT_TCS_VERSION = true.
Proof. split; reflexivity. Qed.

(** C10. A plain string that spells a member's value can stand for that
    member, as parent or as child, in either predicate: the answer is the
    same. *)
Theorem plain_string_same_as_member :
  (forall (m : ReportingOrgVersion.t) (s : string) (c : PyStr),
      s = ReportingOrgVersion.value m ->
      is_emissions_report_compatible (Str s) c
      = is_emissions_report_compatible (RO m) c)
  /\ (forall (p : PyStr) (m : EmissionsReportVersion.t) (s : string),
      s = EmissionsReportVersion.value m ->
      is_emissions_report_compatible p (Str s)
      = is_emissions_report_compatible p (ER m))
  /\ (forall (m : EmissionsReportVersion.t) (s : string) (c : PyStr),
      s = EmissionsReportVersion.value m ->
      is_tcs_compatible (Str s) c = is_tcs_compatible (ER m) c)
  /\ (forall (p : PyStr) (m : TCSVersion.t) (s : string),
      s = TCSVersion.value m ->
      is_tcs_compatible p (Str s) = is_tcs_compatible p (TCS m)).
Proof.
  repeat split; intros; subst;
    first [ apply is_emissions_report_compatible_value
          | apply is_tcs_compatible_value ]; reflexivity.
Qed.

Lemma plain_string_same_as_member_witness :
  is_emissions_report_compatible (Str "0.1.0") (ER EmissionsReportVersion.V0_0_2)
  = is_emissions_report_compatible (RO ReportingOrgVersion.V0_1_0)
                                   (ER EmissionsReportVersion.V0_0_2)
  /\ is_emissions_report_compatible (RO ReportingOrgVersion.V0_1_0) (Str "0.0.3")
     = is_emissions_report_compatible (RO ReportingOrgVersion.V0_1_0)
                                      (ER EmissionsReportVersion.V0_0_3)
  /\ is_tcs_compatible (Str "0.0.2") (TCS TCSVersion.V0_0_2)
     = is_tcs_compatible (ER EmissionsReportVersion.V0_0_2) (TCS TCSVersion.V0_0_2)
  /\ is_tcs_compatible (ER EmissionsReportVersion.V0_0_2) (Str "0.1.0")
     = is_tcs_compatible (ER EmissionsReportVersion.V0_0_2) (TCS TCSVersion.V0_1_0).
Proof.
  destruct plain_string_same_as_member as [H1 [H2 [H3 H4]]].
  split; [apply (H1 ReportingOrgVersion.V0_1_0); reflexivity|].
  split; [apply (H2 _ EmissionsReportVersion.V0_0_3); reflexivity|].
  split; [apply (H3 EmissionsReportVersion.V0_0_2); reflexivity|].
  apply (H4 _ TCSVersion.V0_1_0); reflexivity.
Defined.

(** ** Further properties of the tables and the predicates *)

(** A successful lookup returns the entry of a key with the same
    characters as the one asked for. *)
Lemma dict_getitem_Some_In (d : PyDict) (k : PyStr) (v : list PyStr) :
  dict_getitem d k = Some v ->
  exists key, In (key, v) d /\ str_value key = str_value k.
Proof.
  induction d as [|[key w] d IH]; simpl; [discriminate|].
  destruct (py_eq key k) eqn:E.
  - intros [= ->]. exists key. split; [left; reflexivity|].
    apply py_eq_true_iff, E.
  - intros H. destruct (IH H) as [key' [Hin Hv]].
    exists key'. split; [right; exact Hin | exact Hv].
Qed.

(** What an accepted pair looks like: a key of the table and an element
    of its entry, each with the characters of the argument. *)
Lemma accepted_pair_in_table (d : PyDict) (p c : PyStr) :
  list_contains (dict_get d p []) c = true ->
  exists key l y, In (key, l) d /\ In y l
                  /\ str_value key = str_value p /\ str_value y = str_value c.
Proof.
  unfold dict_get. destruct (dict_getitem d p) as [l|] eqn:E; [|discriminate].
  intros H. apply list_contains_In in H. destruct H as [y [Hy Hv]].
  destruct (dict_getitem_Some_In _ _ _ E) as [key [Hin Hk]].
  exists key, l, y. auto.
Qed.

(** Go through the rows of a concrete table and the elements of each
    entry. *)
Ltac each_row Hin Hy :=
  simpl in Hin;
  repeat (destruct Hin as [Hin | Hin];
          [ injection Hin as <- <-; simpl in Hy;
            repeat (destruct Hy as [Hy | Hy]; [subst | ]);
            try contradiction
          | ]);
  try contradiction.

Lemma is_emissions_report_compatible_inv (p c : PyStr) :
  is_emissions_report_compatible p c = true ->
  exists m n, str_value p = ReportingOrgVersion.value m
              /\ str_value c = EmissionsReportVersion.value n
              /\ is_emissions_report_compatible (RO m) (ER n) = true.
Proof.
  intros H. apply accepted_pair_in_table in H.
  destruct H as [key [l [y [Hin [Hy [Hk Hv]]]]]].
  each_row Hin Hy;
    match goal with
    | Hk : str_value (RO ?m) = _, Hv : str_value (ER ?n) = _ |- _ =>
        exists m, n; repeat split; [symmetry; exact Hk | symmetry; exact Hv]
    end.
Qed.

Lemma is_tcs_compatible_inv (p c : PyStr) :
  is_tcs_compatible p c = true ->
  exists m n, str_value p = EmissionsReportVersion.value m
              /\ str_value c = TCSVersion.value n
              /\ is_tcs_compatible (ER m) (TCS n) = true.
Proof.
  intros H. apply accepted_pair_in_table in H.
  destruct H as [key [l [y [Hin [Hy [Hk Hv]]]]]].
  each_row Hin Hy;
    match goal with
    | Hk : str_value (ER ?m) = _, Hv : str_value (TCS ?n) = _ |- _ =>
        exists m, n; repeat split; [symmetry; exact Hk | symmetry; exact Hv]
    end.
Qed.

(** X1. The predicates never look at the class of an argument: two
    parents with the same characters and two children with the same
    characters give the same answer, whether they are plain strings or
    members of any of the three enumerations. *)
Theorem predicates_ignore_argument_class :
  (forall p p' c c' : PyStr,
      str_value p = str_value p' -> str_value c = str_value c' ->
      is_emissions_report_compatible p c = is_emissions_report_compatible p' c')
  /\ (forall p p' c c' : PyStr,
      str_value p = str_value p' -> str_value c = str_value c' ->
      is_tcs_compatible p c = is_tcs_compatible p' c').
Proof.
  split; intros p p' c c' Hp Hc.
  - unfold is_emissions_report_compatible.
    rewrite (dict_get_value _ _ _ _ Hp). apply list_contains_value, Hc.
  - unfold is_tcs_compatible.
    rewrite (dict_get_value _ _ _ _ Hp). apply list_contains_value, Hc.
Qed.

Lemma predicates_ignore_argument_class_witness :
  is_emissions_report_compatible (ER EmissionsReportVersion.V0_0_1) (TCS TCSVersion.V0_0_2)
  = is_emissions_report_compatible (RO ReportingOrgVersion.V0_0_1) (ER EmissionsReportVersion.V0_0_2)
  /\ is_tcs_compatible (TCS TCSVersion.V0_0_2) (RO ReportingOrgVersion.V0_0_1)
     = is_tcs_compatible (ER EmissionsReportVersion.V0_0_2) (TCS TCSVersion.V0_0_1).
Proof.
  split.
  - apply (proj1 predicates_ignore_argument_class); reflexivity.
  - apply (proj2 predicates_ignore_argument_class); reflexivity.
Defined.

(** X2. Only enumerated identifiers are ever compatible: when a predicate
    answers [True], the parent spells a value of the parent enumeration
    and the child spells a value of the child enumeration.  An unknown
    child is rejected just as an unknown parent is. *)
Theorem compatible_only_enumerated_values :
  (forall p c : PyStr,
      is_emissions_report_compatible p c = true ->
      In (str_value p) (map ReportingOrgVersion.value ReportingOrgVersion.members)
      /\ In (str_value c) (map EmissionsReportVersion.value EmissionsReportVersion.members))
  /\ (forall p c : PyStr,
      is_tcs_compatible p c = true ->
      In (str_value p) (map EmissionsReportVersion.value EmissionsReportVersion.members)
      /\ In (str_value c) (map TCSVersion.value TCSVersion.members)).
Proof.
  split; intros p c H.
  - destruct (is_emissions_report_compatible_inv _ _ H) as [m [n [-> [-> _]]]].
    split; apply in_map; [destruct m | destruct n]; simpl; tauto.
  - destruct (is_tcs_compatible_inv _ _ H) as [m [n [-> [-> _]]]].
    split; apply in_map; [destruct m | destruct n]; simpl; tauto.
Qed.

Lemma compatible_only_enumerated_values_witness :
  (is_emissions_report_compatible (Str "0.1.0") (Str "0.0.2") = true
   /\ In "0.1.0" (map ReportingOrgVersion.value ReportingOrgVersion.members)
   /\ In "0.0.2" (map EmissionsReportVersion.value EmissionsReportVersion.members))
  /\ (is_tcs_compatible (Str "0.0.3") (Str "0.1.0") = true
      /\ In "0.0.3" (map EmissionsReportVersion.value EmissionsReportVersion.members)
      /\ In "0.1.0" (map TCSVersion.value TCSVersion.members)).
Proof.
  split; (split; [reflexivity|]).
  - apply (proj1 compatible_only_enumerated_values (Str "0.1.0") (Str "0.0.2")).
    reflexivity.
  - apply (proj2 compatible_only_enumerated_values (Str "0.0.3") (Str "0.1.0")).
    reflexivity.
Defined.

(** X3. Each entry of a table is a non-empty initial segment of the
    child enumeration, written in iteration order: it holds members of
    the child class only, oldest first and without repetition, so its
    length is the number of accepted versions. *)
Theorem entries_are_initial_segments :
  (forall p : ReportingOrgVersion.t,
      exists n, 0 < n
                /\ dict_getitem REPORTING_ORG_COMPATIBILITY (RO p)
                   = Some (map ER (firstn n EmissionsReportVersion.members)))
  /\ (forall p : EmissionsReportVersion.t,
      exists n, 0 < n
                /\ dict_getitem EMISSIONS_REPORT_COMPATIBILITY (ER p)
                   = Some (map TCS (firstn n TCSVersion.members))).
Proof.
  split.
  - intros []; [exists 1 | exists 2 | exists 3 | exists 3];
      (split; [lia | reflexivity]).
  - intros []; [exists 1 | exists 2 | exists 3];
      (split; [lia | reflexivity]).
Qed.

(** X4. The keys of each table are exactly the values of its parent
    enumeration, each once: for any string object, [p in TABLE] holds
    just when [p] spells a member's value, and no two keys are equal (no
    entry of the literal shadows another). *)
Theorem table_keys_are_the_members :
  (forall p : PyStr,
      dict_contains REPORTING_ORG_COMPATIBILITY p
      = existsb (fun m => String.eqb (ReportingOrgVersion.value m) (str_value p))
                ReportingOrgVersion.members)
  /\ NoDup (map (fun kv => str_value (fst kv)) REPORTING_ORG_COMPATIBILITY)
  /\ (forall p : PyStr,
      dict_contains EMISSIONS_REPORT_COMPATIBILITY p
      = existsb (fun m => String.eqb (EmissionsReportVersion.value m) (str_value p))
                EmissionsReportVersion.members)
  /\ NoDup (map (fun kv => str_value (fst kv)) EMISSIONS_REPORT_COMPATIBILITY).
Proof.
  assert (Hnd3 : forall a b c : string,
             a <> b -> a <> c -> b <> c -> NoDup [a; b; c]).
  { intros a b c Hab Hac Hbc. repeat constructor; simpl; intuition congruence. }
  repeat split.
  - intros p. unfold dict_contains.
    cbn [dict_getitem REPORTING_ORG_COMPATIBILITY existsb
         ReportingOrgVersion.members].
    unfold py_eq. cbn [str_value ReportingOrgVersion.value].
    destruct (String.eqb "0.1.2" (str_value p));
      destruct (String.eqb "0.1.1" (str_value p));
      destruct (String.eqb "0.1.0" (str_value p));
      destruct (String.eqb "0.0.1" (str_value p)); reflexivity.
  - simpl. constructor; [simpl; intuition discriminate|].
    apply Hnd3; discriminate.
  - intros p. unfold dict_contains.
    cbn [dict_getitem EMISSIONS_REPORT_COMPATIBILITY existsb
         EmissionsReportVersion.members].
    unfold py_eq. cbn [str_value EmissionsReportVersion.value].
    destruct (String.eqb "0.0.3" (str_value p));
      destruct (String.eqb "0.0.2" (str_value p));
      destruct (String.eqb "0.0.1" (str_value p)); reflexivity.
  - simpl. apply Hnd3; discriminate.
Qed.

(** X5. The newest parent of each layer accepts every version of its
    child enumeration: Reporting-Org 0.1.2 (the default) and 0.1.1 accept
    every Emissions-Report version, and Emissions-Report 0.0.3 (the
    default) accepts every TCS version. *)
Theorem newest_parent_accepts_every_child :
  (forall c : EmissionsReportVersion.t,
      is_emissions_report_compatible DEFAULT_REPORTING_ORG_VERSION (ER c) = true
      /\ is_emissions_report_compatible (RO ReportingOrgVersion.V0_1_1) (ER c) = true)
  /\ (forall c : TCSVersion.t,
      is_tcs_compatible DEFAULT_EMISSIONS_REPORT_VERSION (TCS c) = true).
Proof. split; intros []; repeat split. Qed.

(** X6. The oldest child version is accepted by every parent version, in
    both layers; so every Reporting-Org version has at least one complete
    valid combination, the one with Emissions-Report 0.0.1 and TCS
    0.0.1. *)
Theorem oldest_child_accepted_by_every_parent :
  (forall p : ReportingOrgVersion.t,
      is_emissions_report_compatible (RO p) (ER EmissionsReportVersion.V0_0_1) = true)
  /\ (forall p : EmissionsReportVersion.t,
      is_tcs_compatible (ER p) (TCS TCSVersion.V0_0_1) = true)
  /\ (forall p : ReportingOrgVersion.t,
      is_emissions_report_compatible (RO p) (ER EmissionsReportVersion.V0_0_1)
      && is_tcs_compatible (ER EmissionsReportVersion.V0_0_1) (TCS TCSVersion.V0_0_1)
      = true).
Proof. repeat split; intros []; reflexivity. Qed.

(** X7. The two tables chain: an Emissions-Report argument that some
    Reporting-Org parent accepts is itself a key of
    [EMISSIONS_REPORT_COMPATIBILITY], so the second lookup never falls
    back to the empty default, and it accepts at least one TCS version. *)
Theorem accepted_child_is_parent_of_next_layer :
  forall p c : PyStr,
    is_emissions_report_compatible p c = true ->
    dict_contains EMISSIONS_REPORT_COMPATIBILITY c = true
    /\ exists t : TCSVersion.t, is_tcs_compatible c (TCS t) = true.
Proof.
  intros p c H.
  destruct (is_emissions_report_compatible_inv _ _ H) as [m [n [_ [Hc _]]]].
  change (EmissionsReportVersion.value n) with (str_value (ER n)) in Hc.
  split.
  - unfold dict_contains. rewrite (dict_getitem_value _ _ _ Hc).
    destruct n; reflexivity.
  - exists TCSVersion.V0_0_1.
    rewrite (is_tcs_compatible_value c (ER n) _ (TCS TCSVersion.V0_0_1) Hc eq_refl).
    destruct n; reflexivity.
Qed.

Lemma accepted_child_is_parent_of_next_layer_witness :
  is_emissions_report_compatible (Str "0.1.1") (Str "0.0.3") = true
  /\ dict_contains EMISSIONS_REPORT_COMPATIBILITY (Str "0.0.3") = true
  /\ exists t : TCSVersion.t, is_tcs_compatible (Str "0.0.3") (TCS t) = true.
Proof.
  split; [reflexivity|].
  apply (accepted_child_is_parent_of_next_layer (Str "0.1.1") (Str "0.0.3")).
  reflexivity.
Defined.
